(** * scaledata/bigquery: value adaptation and nested-row rerouting

    A shallow embedding of the [driver] package (src/driver/columns.go,
    src/driver/statement.go and the second revision of columns.go found
    under src/unnamed/part_000), with the properties stated in the
    specification proved or refuted on it.

    Layout:
    - [time]     the part of Go's [time] package the driver calls
                 ([time.Date], the field accessors, one [Format] layout);
    - [civil]    the three structs of cloud.google.com/go/civil;
    - data model ([Value], [FieldSchema], adaptors, columns);
    - [Columns]  columns.go as found in src/driver;
    - [Part000]  columns.go as found in src/unnamed/part_000;
    - [Statement] the reroute branch of [QueryContext];
    - theorems. *)

From Stdlib Require Import ZArith List String Ascii Bool Lia.
Import ListNotations.
Set Warnings "-register-all".
Local Open Scope string_scope.
Local Open Scope list_scope.
Local Open Scope Z_scope.

(** ** Checking a boolean predicate on an initial segment of [Z] *)

Fixpoint forall_below (n : nat) (p : Z -> bool) : bool :=
  match n with
  | O => true
  | S k => p (Z.of_nat k) && forall_below k p
  end.

(** ** Go's [time] package, as far as the driver uses it

    A [Time] is an instant: seconds since the Unix epoch, a nanosecond
    offset inside that second, and the location it is presented in.  The
    driver only ever builds times in [UTC].  Seconds are unbounded here; Go
    keeps them in 64 bits, which covers every year within about 292 billion
    years of the epoch. *)

Module time.

Inductive Location := UTC | Local.

Record Time := mkTime { unixSec : Z; nsec : Z; loc : Location }.

(** [norm hi lo base] carries the overflow of [lo] into [hi]; Go writes it
    with two loops-free adjustments that amount to floor division. *)
Definition norm (hi lo base : Z) : Z * Z := (hi + lo / base, lo mod base).

Definition isLeap (year : Z) : bool :=
  (year mod 4 =? 0) && (negb (year mod 100 =? 0) || (year mod 400 =? 0)).

(** [daysBefore m] is the number of days of a non-leap year before month
    [m + 1]; [daysBefore 12 = 365]. *)
Definition daysBefore (m : Z) : Z :=
  match m with
  | 0 => 0 | 1 => 31 | 2 => 59 | 3 => 90 | 4 => 120 | 5 => 151
  | 6 => 181 | 7 => 212 | 8 => 243 | 9 => 273 | 10 => 304 | 11 => 334
  | _ => 365
  end.

(** Days from 0001-01-01 to January 1st of [year], proleptic Gregorian. *)
Definition daysBeforeYear (year : Z) : Z :=
  let p := year - 1 in 365 * p + p / 4 - p / 100 + p / 400.

(** Days from 0001-01-01 to 1970-01-01. *)
Definition unixEpochDay : Z := 719162.

Definition daysSinceEpoch (year : Z) : Z := daysBeforeYear year - unixEpochDay.

Definition secondsPerDay : Z := 86400.

(** [time.Date]: out-of-range fields are normalised, month first, then
    nanoseconds up to hours, each carrying into the next field. *)
Definition Date (year month day hour min sec nsec : Z) (l : Location) : Time :=
  let '(year, m) := norm year (month - 1) 12 in
  let month := m + 1 in
  let '(sec, nsec) := norm sec nsec 1000000000 in
  let '(min, sec) := norm min sec 60 in
  let '(hour, min) := norm hour min 60 in
  let '(day, hour) := norm day hour 24 in
  let d := daysSinceEpoch year + daysBefore (month - 1)
           + (if isLeap year && (3 <=? month) then 1 else 0)
           + (day - 1) in
  mkTime (d * secondsPerDay + (hour * 3600 + min * 60 + sec)) nsec l.

(** One 400-year cycle: from a day number inside the cycle to the year
    inside the cycle and the day inside that year. *)
Definition cycleYear (d : Z) : Z * Z :=
  let n100 := d / 36524 in
  let n100 := n100 - n100 / 4 in
  let d := d - 36524 * n100 in
  let n4 := d / 1461 in
  let d := d - 1461 * n4 in
  let n1 := d / 365 in
  let n1 := n1 - n1 / 4 in
  let d := d - 365 * n1 in
  (100 * n100 + 4 * n4 + n1, d).

(** From a day number counted from 0001-01-01 to (year, day of year). *)
Definition yearDay (n : Z) : Z * Z :=
  let '(y, yday) := cycleYear (n mod 146097) in
  (400 * (n / 146097) + y + 1, yday).

(** From the day of the year to (month, day of month). *)
Definition monthDay (leap : bool) (yday : Z) : Z * Z :=
  if leap && (yday =? 31 + 29 - 1) then (2, 29)
  else
    let day := if leap && (31 + 29 - 1 <? yday) then yday - 1 else yday in
    let month := day / 31 in
    let e := daysBefore (month + 1) in
    if e <=? day then (month + 2, day - e + 1)
    else (month + 1, day - daysBefore month + 1).

Definition absDate (t : Time) : Z * Z * Z :=
  let '(year, yday) := yearDay (unixSec t / secondsPerDay + unixEpochDay) in
  let '(month, day) := monthDay (isLeap year) yday in
  (year, month, day).

Definition Year (t : Time) : Z := fst (fst (absDate t)).
Definition Month (t : Time) : Z := snd (fst (absDate t)).
Definition Day (t : Time) : Z := snd (absDate t).
Definition Hour (t : Time) : Z := unixSec t mod secondsPerDay / 3600.
Definition Minute (t : Time) : Z := unixSec t mod 3600 / 60.
Definition Second (t : Time) : Z := unixSec t mod 60.
Definition Nanosecond (t : Time) : Z := nsec t.
Definition Location_ (t : Time) : Location := loc t.

(** [t.UTC()]: the same instant presented in UTC. *)
Definition toUTC (t : Time) : Time := mkTime (unixSec t) (nsec t) UTC.

(** Decimal rendering of [n] on exactly [width] digits (higher digits
    dropped), as the fixed-width verbs of a layout print it. *)
Definition digit (n : Z) : ascii := ascii_of_nat (48 + Z.to_nat (n mod 10)).

Fixpoint digits (width : nat) (n : Z) : string :=
  match width with
  | O => EmptyString
  | S w => (digits w (n / 10) ++ String (digit n) EmptyString)%string
  end.

(** [t.Format("15:04:05.000000")]: hour, minute and second on two digits
    and the fraction of the second on six, truncated. *)
Definition FormatTimeOfDayMicro (t : Time) : string :=
  (digits 2 (Hour t) ++ ":" ++ digits 2 (Minute t) ++ ":"
     ++ digits 2 (Second t) ++ "." ++ digits 6 (Nanosecond t / 1000))%string.

Definition daysIn (leap : bool) (month : Z) : Z :=
  if (month =? 2) && leap then 29
  else daysBefore month - daysBefore (month - 1).

Definition validDate (year month day : Z) : Prop :=
  1 <= month <= 12 /\ 1 <= day <= daysIn (isLeap year) month.

Definition validClock (hour min sec nsec : Z) : Prop :=
  0 <= hour < 24 /\ 0 <= min < 60 /\ 0 <= sec < 60 /\ 0 <= nsec < 1000000000.

End time.

(** ** cloud.google.com/go/civil: dates and times without a location

    The fields are Go [int]s; nothing in the types keeps them in range. *)

Module civil.

Record Date := mkDate { Year : Z; Month : Z; Day : Z }.

Record Time := mkTime { Hour : Z; Minute : Z; Second : Z; Nanosecond : Z }.

Record DateTime := mkDateTime { dt_Date : Date; dt_Time : Time }.

(** What [Date.IsValid], [Time.IsValid] and [DateTime.IsValid] accept. *)
Definition validDate (d : Date) : Prop :=
  time.validDate (Year d) (Month d) (Day d).

Definition validTime (t : Time) : Prop :=
  time.validClock (Hour t) (Minute t) (Second t) (Nanosecond t).

Definition validDateTime (dt : DateTime) : Prop :=
  validDate (dt_Date dt) /\ validTime (dt_Time dt).

End civil.

(** ** cloud.google.com/go/bigquery: field types and schemas *)

Module bigquery.

Definition FieldType := string.

Definition DateFieldType : FieldType := "DATE".
Definition TimeFieldType : FieldType := "TIME".
Definition DateTimeFieldType : FieldType := "DATETIME".
Definition StringFieldType : FieldType := "STRING".
Definition IntegerFieldType : FieldType := "INTEGER".
Definition RecordFieldType : FieldType := "RECORD".

(** [FieldSchema], with the fields the driver reads; [Schema] is a slice of
    them, so schemas nest. *)
Inductive FieldSchema :=
| mkFieldSchema (Name : string) (Type_ : FieldType) (Schema : list FieldSchema).

Definition Schema := list FieldSchema.

Definition Name (f : FieldSchema) : string :=
  let 'mkFieldSchema n _ _ := f in n.

Definition Type_ (f : FieldSchema) : FieldType :=
  let 'mkFieldSchema _ t _ := f in t.

Definition fieldSchema (f : FieldSchema) : Schema :=
  let 'mkFieldSchema _ _ s := f in s.

End bigquery.

(** ** Values

    [bigquery.Value] and [driver.Value] are both Go's empty interface; one
    type stands for the dynamic values the driver inspects.
    [bigQueryReroutedColumn] is the driver's own struct (the nested token of
    the specification), carried as a value like the others. *)

Inductive Value :=
| VNil
| VBool (b : bool)
| VInt (i : Z)
| VString (s : string)
| VCivilDate (d : civil.Date)
| VCivilTime (t : civil.Time)
| VCivilDateTime (dt : civil.DateTime)
| VTime (t : time.Time)
| VValues (values : list Value)
| bigQueryReroutedColumn (values : list Value) (schema : bigquery.Schema).

(** Go's [error]; every error built in the sources is [errors.New] of a
    message.  [None] is the nil error. *)
Definition error := string.

Definition isNil (value : Value) : bool :=
  match value with VNil => true | _ => false end.

(** [_, ok := value.([]bigquery.Value)] *)
Definition isValues (value : Value) : bool :=
  match value with VValues _ => true | _ => false end.

Definition isCivilTime (value : Value) : bool :=
  match value with VCivilTime _ => true | _ => false end.

Definition isReroutedColumn (value : Value) : bool :=
  match value with bigQueryReroutedColumn _ _ => true | _ => false end.

(** ** The adaptor interfaces (package [adaptor])

    Only their use is in the sources: [SchemaColumnAdaptor] has one method,
    [AdaptValue]; [SchemaAdaptor] has [GetColumnAdaptor], whose nil result
    is [None]. *)

Record SchemaColumnAdaptor := mkColumnAdaptor
  { AdaptValue : Value -> Value * option error }.

Record SchemaAdaptor := mkSchemaAdaptor
  { GetColumnAdaptor : string -> option SchemaColumnAdaptor }.

(** ** Columns and schemas of the driver *)

Record bigQueryColumn := mkColumn
  { Name : string;
    Schema : bigquery.Schema;
    Adaptor : option SchemaColumnAdaptor;
    FieldType : bigquery.FieldType }.

Record bigQueryColumns := mkColumns
  { names : list string;
    columns : list bigQueryColumn }.

Definition ColumnNames (columns : bigQueryColumns) : list string :=
  names columns.

(** One pass of the loop of [createBigQuerySchema]. *)
Definition appendColumn (schemaAdaptor : option SchemaAdaptor)
  (acc : list string * list bigQueryColumn) (column : bigquery.FieldSchema)
  : list string * list bigQueryColumn :=
  let name := bigquery.Name column in
  let columnAdaptor :=
    match schemaAdaptor with
    | Some a => GetColumnAdaptor a name
    | None => None
    end in
  (fst acc ++ [name],
   snd acc ++ [mkColumn name (bigquery.fieldSchema column) columnAdaptor
                        (bigquery.Type_ column)]).

Definition createBigQuerySchema (schema : bigquery.Schema)
  (schemaAdaptor : option SchemaAdaptor) : bigQueryColumns :=
  let '(names, columns) := fold_left (appendColumn schemaAdaptor) schema ([], []) in
  mkColumns names columns.

(** The stages after temporal coercion, columns.go lines 83-103 (the same
    text closes every revision of [ConvertValue]). *)
Definition convertNested (column : bigQueryColumn) (value : Value)
  : Value * option error :=
  if (List.length (Schema column) =? 0)%nat then (value, None)
  else
    let value :=
      match value with
      | VValues values =>
          let values :=
            match values with
            | first :: _ => if isValues first then values else [VValues values]
            | [] => values
            end in
          bigQueryReroutedColumn values (Schema column)
      | _ => value
      end in
    match Adaptor column with
    | Some columnAdaptor => AdaptValue columnAdaptor value
    | None => (value, None)
    end.

(** ** src/driver/columns.go

    [now] is what [time.Now()] returns at the call. *)

Module Columns.

Definition ConvertValue (now : time.Time) (column : bigQueryColumn)
  (value : Value) : Value * option error :=
  match String.eqb (FieldType column) bigquery.DateFieldType, value with
  | true, VCivilDate civilDate =>
      (VTime (time.Date (civil.Year civilDate) (civil.Month civilDate)
                (civil.Day civilDate) 0 0 0 0 time.UTC), None)
  | _, _ =>
  match String.eqb (FieldType column) bigquery.TimeFieldType, value with
  | true, VCivilTime civilTime =>
      let now := time.toUTC now in
      (VTime (time.Date (time.Year now) (time.Month now) (time.Day now)
                (civil.Hour civilTime) (civil.Minute civilTime)
                (civil.Second civilTime) (civil.Nanosecond civilTime)
                time.UTC), None)
  | _, _ =>
  match String.eqb (FieldType column) bigquery.DateTimeFieldType, value with
  | true, VCivilDateTime civilDateTime =>
      let d := civil.dt_Date civilDateTime in
      let t := civil.dt_Time civilDateTime in
      (VTime (time.Date (civil.Year d) (civil.Month d) (civil.Day d)
                (civil.Hour t) (civil.Minute t) (civil.Second t)
                (civil.Nanosecond t) time.UTC), None)
  | _, _ =>
  if (List.length (Schema column) =? 0)%nat then (value, None)
  else
    let value :=
      match value with
      | VValues values =>
          let values :=
            match values with
            | first :: _ => if isValues first then values else [VValues values]
            | [] => values
            end in
          bigQueryReroutedColumn values (Schema column)
      | _ => value
      end in
    match Adaptor column with
    | Some columnAdaptor => AdaptValue columnAdaptor value
    | None => (value, None)
    end
  end end end.

Definition ConvertColumnValue (now : time.Time) (cols : bigQueryColumns)
  (index : Z) (value : Value) : Value * option error :=
  if (-1 <? index) && (index <? Z.of_nat (List.length (columns cols)))
  then
    match nth_error (columns cols) (Z.to_nat index) with
    | Some column => ConvertValue now column value
    | None => (value, None)
    end
  else (value, None).

End Columns.

(** ** src/unnamed/part_000: the revision of columns.go that renders TIME
    as text and reads no clock *)

Module Part000.

(** [tempTime.Format(BigQueryTimeLayout)], the layout being
    ["15:04:05.000000"]. *)
Definition BigQueryTimeLayout : string := "15:04:05.000000".

Definition formatBigQueryTime (t : time.Time) : string :=
  time.FormatTimeOfDayMicro t.

Definition ConvertValue (column : bigQueryColumn) (value : Value)
  : Value * option error :=
  match String.eqb (FieldType column) bigquery.DateFieldType,
        negb (isNil value), value with
  | true, true, VCivilDate civilDate =>
      (VTime (time.Date (civil.Year civilDate) (civil.Month civilDate)
                (civil.Day civilDate) 0 0 0 0 time.UTC), None)
  | _, _, _ =>
  match String.eqb (FieldType column) bigquery.DateTimeFieldType,
        negb (isNil value), value with
  | true, true, VCivilDateTime civilDateTime =>
      let d := civil.dt_Date civilDateTime in
      let t := civil.dt_Time civilDateTime in
      (VTime (time.Date (civil.Year d) (civil.Month d) (civil.Day d)
                (civil.Hour t) (civil.Minute t) (civil.Second t)
                (civil.Nanosecond t) time.UTC), None)
  | _, _, _ =>
  match String.eqb (FieldType column) bigquery.TimeFieldType,
        negb (isNil value), value with
  | true, true, VCivilTime civilTime =>
      let tempTime :=
        time.Date 2000 1 1 (civil.Hour civilTime) (civil.Minute civilTime)
          (civil.Second civilTime) (civil.Nanosecond civilTime) time.UTC in
      (VString (formatBigQueryTime tempTime), None)
  | _, _, _ =>
  if (List.length (Schema column) =? 0)%nat then (value, None)
  else
    let value :=
      match value with
      | VValues values =>
          let values :=
            match values with
            | first :: _ => if isValues first then values else [VValues values]
            | [] => values
            end in
          bigQueryReroutedColumn values (Schema column)
      | _ => value
      end in
    match Adaptor column with
    | Some columnAdaptor => AdaptValue columnAdaptor value
    | None => (value, None)
    end
  end end end.

Definition ConvertColumnValue (cols : bigQueryColumns)
  (index : Z) (value : Value) : Value * option error :=
  if (-1 <? index) && (index <? Z.of_nat (List.length (columns cols)))
  then
    match nth_error (columns cols) (Z.to_nat index) with
    | Some column => ConvertValue column value
    | None => (value, None)
    end
  else (value, None).

End Part000.

(** ** src/driver/statement.go *)

Module Statement.

(** [driver.NamedValue] *)
Record NamedValue := mkNamedValue
  { nv_Name : string; nv_Ordinal : Z; nv_Value : Value }.

(** A [driver.Value] of the argument slices: [convertParameters] stores
    whole [NamedValue]s in it, [Exec] and [Query] receive plain values. *)
Inductive driverValue :=
| ArgNamed (namedValue : NamedValue)
| ArgPlain (value : Value).

(** [bigquery.QueryParameter]; an unset [Name] is the empty string. *)
Record QueryParameter := mkQueryParameter
  { qp_Name : string; qp_Value : Value }.

Definition buildParameterFromNamedValue (namedValue : NamedValue)
  (parameters : list QueryParameter) : list QueryParameter :=
  if String.eqb (nv_Name namedValue) ""
  then parameters ++ [mkQueryParameter "" (nv_Value namedValue)]
  else parameters ++ [mkQueryParameter (nv_Name namedValue) (nv_Value namedValue)].

Definition buildParameter (arg : driverValue)
  (parameters : list QueryParameter) : list QueryParameter :=
  match arg with
  | ArgNamed namedValue => buildParameterFromNamedValue namedValue parameters
  | ArgPlain value => parameters ++ [mkQueryParameter "" value]
  end.

Definition buildParameters (args : list driverValue) : list QueryParameter :=
  fold_left (fun parameters arg => buildParameter arg parameters) args [].

Definition convertParameters (args : list NamedValue) : list driverValue :=
  fold_left (fun values arg => values ++ [ArgNamed arg]) args [].

Definition convertParameterToValue (value : driverValue) : Value :=
  match value with
  | ArgNamed namedValue => nv_Value namedValue
  | ArgPlain value => value
  end.

(** The execution context, as far as the driver reads it.

    Modelled from the spec: [adaptor.GetSchemaAdaptor] is not among the
    sources; the schema-adaptor capability is obtained from the caller's
    execution context, and may be absent. *)
Record Context := mkContext { ctx_schemaAdaptor : option SchemaAdaptor }.

Definition GetSchemaAdaptor (ctx : Context) : option SchemaAdaptor :=
  ctx_schemaAdaptor ctx.

(** The three failures of the reroute branch, under the names the
    specification gives them. *)
Definition MissingReroutingArgument : error :=
  "expected a rerouting argument".
Definition InvalidReroutingArgument : error :=
  "expected a rerouting argument with rows".
Definition MissingSchemaAdaptor : error :=
  "expected a rerouting schema adaptor".

(** Modelled from the spec: the in-memory row source that
    [createSourceFromColumn] returns is not among the sources.  It wraps a
    captured sequence of rows under a schema, is finite and not
    restartable, and produces the next row or signals the end of the
    sequence. *)
Record bigQueryColumnSource := mkColumnSource
  { src_schema : bigQueryColumns;
    src_rows : list Value;
    src_position : nat }.

Definition createSourceFromColumn (schema : bigQueryColumns)
  (rows : list Value) : bigQueryColumnSource :=
  mkColumnSource schema rows 0.

Definition GetSchema (source : bigQueryColumnSource) : bigQueryColumns :=
  src_schema source.

Definition sourceNext (source : bigQueryColumnSource)
  : option Value * bigQueryColumnSource :=
  match nth_error (src_rows source) (src_position source) with
  | Some row =>
      (Some row,
       mkColumnSource (src_schema source) (src_rows source)
         (S (src_position source)))
  | None => (None, source)
  end.

Section WithRemote.

(** The sentinel text [adaptor.RerouteQuery], the iterator type of the
    BigQuery client, and the remote executor reached through
    [statement.buildQuery] and [query.Read]: none of them is among the
    sources, and the reroute branch is independent of all three. *)
Variable RerouteQuery : string.
Variable RowIterator : Type.
Variable remoteRead : string -> list QueryParameter -> RowIterator + error.

(** The two row sources a cursor can stand on. *)
Inductive bigQuerySource :=
| ColumnSource (source : bigQueryColumnSource)
| RowIteratorSource (rowIterator : RowIterator)
    (schemaAdaptor : option SchemaAdaptor).

Record bigQueryRows := mkRows { source : bigQuerySource }.

Record bigQueryStatement := mkStatement { query : string }.

(** A call handed to the remote executor: the statement text and the
    parameters built for it. *)
Definition RemoteCall := (string * list QueryParameter)%type.

(** [QueryContext] returns rows or an error; the second component lists
    the calls made to the remote executor on the way.  Debug logging is
    left out. *)
Definition QueryContext (statement : bigQueryStatement) (ctx : Context)
  (args : list NamedValue) : (bigQueryRows + error) * list RemoteCall :=
  if String.eqb (query statement) RerouteQuery then
    if (Z.of_nat (List.length args) <? 1) then
      (inr MissingReroutingArgument, [])
    else
      match args with
      | [] => (inr MissingReroutingArgument, [])
      | arg0 :: _ =>
          match nv_Value arg0 with
          | bigQueryReroutedColumn values schema =>
              match GetSchemaAdaptor ctx with
              | None => (inr MissingSchemaAdaptor, [])
              | Some schemaAdaptor =>
                  let schema := createBigQuerySchema schema (Some schemaAdaptor) in
                  (inl (mkRows (ColumnSource (createSourceFromColumn schema values))),
                   [])
              end
          | _ => (inr InvalidReroutingArgument, [])
          end
      end
  else
    let parameters := buildParameters (convertParameters args) in
    let call := (query statement, parameters) in
    match remoteRead (query statement) parameters with
    | inr err => (inr err, [call])
    | inl rowIterator =>
        (inl (mkRows (RowIteratorSource rowIterator (GetSchemaAdaptor ctx))),
         [call])
    end.

End WithRemote.

Arguments ColumnSource {RowIterator} source.
Arguments RowIteratorSource {RowIterator} rowIterator schemaAdaptor.
Arguments mkRows {RowIterator} source.
Arguments source {RowIterator} b.
Arguments QueryContext RerouteQuery {RowIterator} remoteRead statement ctx args.

(** Modelled from the spec: the cursor's reading side ([Columns] and
    [Next] of [bigQueryRows]) is not among the sources.  A cursor reports
    the column names of its schema, and each row it reads passes cell by
    cell, keyed by the cell's position, through the value converter; a
    failing conversion aborts the row with the adaptor's error. *)
Inductive NextResult :=
| NextRow (dest : list Value)
| NextError (err : error)
| NextDone.

Definition sourceColumns (source : bigQueryColumnSource) : list string :=
  ColumnNames (GetSchema source).

Fixpoint convertCells (now : time.Time) (schema : bigQueryColumns)
  (index : Z) (cells : list Value) : list Value + error :=
  match cells with
  | [] => inl []
  | cell :: rest =>
      match Columns.ConvertColumnValue now schema index cell with
      | (_, Some err) => inr err
      | (converted, None) =>
          match convertCells now schema (index + 1) rest with
          | inl dest => inl (converted :: dest)
          | inr err => inr err
          end
      end
  end.

Definition rowResult (now : time.Time) (schema : bigQueryColumns)
  (cells : list Value) : NextResult :=
  match convertCells now schema 0 cells with
  | inl dest => NextRow dest
  | inr err => NextError err
  end.

Definition notARow : error := "row is not a sequence of values".

Definition Next (now : time.Time) (source : bigQueryColumnSource)
  : NextResult * bigQueryColumnSource :=
  match sourceNext source with
  | (None, source) => (NextDone, source)
  | (Some (VValues cells), source) =>
      (rowResult now (GetSchema source) cells, source)
  | (Some _, source) => (NextError notARow, source)
  end.

(** Reading a cursor to its end: [clock k] is the clock at the [k]-th call
    of [Next].  [None] when [fuel] calls did not reach the end. *)
Fixpoint drain (fuel : nat) (clock : nat -> time.Time) (call : nat)
  (source : bigQueryColumnSource) : option (list NextResult) :=
  match fuel with
  | O => None
  | S fuel =>
      match Next (clock call) source with
      | (NextDone, _) => Some []
      | (result, source) =>
          match drain fuel clock (S call) source with
          | Some results => Some (result :: results)
          | None => None
          end
      end
  end.

End Statement.

(** ** Finite checks behind the calendar lemmas

    The Gregorian calendar repeats every 400 years, so the year and month
    arithmetic of [time] is checked exhaustively on one cycle (by
    computation) and lifted to every year (by proof). *)

Definition cycleOffset (r : Z) : Z := 365 * r + r / 4 - r / 100.

Definition yearLength (leap : bool) : Z := if leap then 366 else 365.

Definition dayOfYear (leap : bool) (month day : Z) : Z :=
  time.daysBefore (month - 1) + (if leap && (3 <=? month) then 1 else 0)
  + (day - 1).

Definition cycleYearCheck : bool :=
  forall_below 400 (fun r =>
    forall_below 366 (fun yd =>
      (yearLength (time.isLeap (r + 1)) <=? yd)
      || (let '(y, d) := time.cycleYear (cycleOffset r + yd) in
          (y =? r) && (d =? yd) && (cycleOffset r + yd <? 146097)))).

Definition monthDayCheckFor (leap : bool) : bool :=
  forall_below 13 (fun m =>
    forall_below 32 (fun d =>
      negb ((1 <=? m) && (1 <=? d) && (d <=? time.daysIn leap m))
      || (let yd := dayOfYear leap m d in
          let '(m', d') := time.monthDay leap yd in
          (m' =? m) && (d' =? d) && (0 <=? yd) && (yd <? yearLength leap)))).

Definition monthDayCheck : bool :=
  monthDayCheckFor true && monthDayCheckFor false.

(** ** Vocabulary of the statements

    [temporalMatch] says that the first stage of [ConvertValue] fires: the
    column's tag is one of the three temporal tags and the raw value has the
    civil type that goes with it. *)

Definition isCivilDate (value : Value) : bool :=
  match value with VCivilDate _ => true | _ => false end.

Definition isCivilDateTime (value : Value) : bool :=
  match value with VCivilDateTime _ => true | _ => false end.

Definition isTemporal (column : bigQueryColumn) : bool :=
  String.eqb (FieldType column) bigquery.DateFieldType
  || String.eqb (FieldType column) bigquery.TimeFieldType
  || String.eqb (FieldType column) bigquery.DateTimeFieldType.

Definition temporalMatch (column : bigQueryColumn) (value : Value) : bool :=
  (String.eqb (FieldType column) bigquery.DateFieldType && isCivilDate value)
  || (String.eqb (FieldType column) bigquery.TimeFieldType && isCivilTime value)
  || (String.eqb (FieldType column) bigquery.DateTimeFieldType
      && isCivilDateTime value).

(** The calendar date a clock reading falls on, in UTC. *)
Definition utcDate (now : time.Time) : Z * Z * Z :=
  time.absDate (time.toUTC now).

(** What stage four does with the working value. *)
Definition adapt (column : bigQueryColumn) (value : Value)
  : Value * option error :=
  match Adaptor column with
  | Some columnAdaptor => AdaptValue columnAdaptor value
  | None => (value, None)
  end.

(** The column [createBigQuerySchema] builds for one field. *)
Definition columnOf (schemaAdaptor : option SchemaAdaptor)
  (column : bigquery.FieldSchema) : bigQueryColumn :=
  mkColumn (bigquery.Name column) (bigquery.fieldSchema column)
    (match schemaAdaptor with
     | Some a => GetColumnAdaptor a (bigquery.Name column)
     | None => None
     end)
    (bigquery.Type_ column).

(** The results a cursor over [rows] is expected to deliver, the first of
    them at call number [call]. *)
Fixpoint expectedRows (clock : nat -> time.Time) (schema : bigQueryColumns)
  (call : nat) (rows : list (list Value)) : list Statement.NextResult :=
  match rows with
  | [] => []
  | cells :: rest =>
      Statement.rowResult (clock call) schema cells
        :: expectedRows clock schema (S call) rest
  end.

(** Sample data for the closed statements below. *)
Definition sampleField : bigquery.FieldSchema :=
  bigquery.mkFieldSchema "tag" bigquery.StringFieldType [].

Definition sampleAdaptor : SchemaColumnAdaptor :=
  mkColumnAdaptor (fun _ => (VString "adapted", None)).

Definition emptySchemaAdaptor : SchemaAdaptor :=
  mkSchemaAdaptor (fun _ => None).

Definition noon2020 : time.Time := time.Date 2020 1 1 12 0 0 0 time.UTC.
Definition noon2021 : time.Time := time.Date 2021 6 15 12 0 0 0 time.UTC.

Definition nestedColumn : bigQueryColumn :=
  mkColumn "tags" [sampleField] None bigquery.RecordFieldType.

Definition flatAdaptedColumn : bigQueryColumn :=
  mkColumn "name" [] (Some sampleAdaptor) bigquery.StringFieldType.

Definition flatDateColumn : bigQueryColumn :=
  mkColumn "day" [] None bigquery.DateFieldType.

Definition nestedDateColumn : bigQueryColumn :=
  mkColumn "day" [sampleField] None bigquery.DateFieldType.

Definition nestedAdaptedDateColumn : bigQueryColumn :=
  mkColumn "day" [sampleField] (Some sampleAdaptor) bigquery.DateFieldType.

Definition timeColumn : bigQueryColumn :=
  mkColumn "at" [] None bigquery.TimeFieldType.

Definition dateTimeColumn : bigQueryColumn :=
  mkColumn "stamp" [] None bigquery.DateTimeFieldType.

Definition newYear2020 : civil.Date := civil.mkDate 2020 1 1.

(** February 30th: well-typed, not a date of the calendar. *)
Definition february30 : civil.Date := civil.mkDate 2021 2 30.

Definition someClock : civil.Time := civil.mkTime 7 5 9 123456789.

Definition evening2020 : time.Time := time.Date 2020 1 1 18 30 0 0 time.UTC.

(** Stand-ins for what lies outside the sources, for the closed
    statements: a sentinel text, and a remote executor that fails. *)
Definition sampleSentinel : string := "REROUTE".

Definition sampleRemote (q : string) (ps : list Statement.QueryParameter)
  : unit + error := inr "remote executor not reachable".

Definition sampleToken : Value :=
  bigQueryReroutedColumn [VValues [VString "x"]; VValues [VString "y"]]
    [sampleField].

Definition tokenArg : Statement.NamedValue :=
  Statement.mkNamedValue "" 1 sampleToken.

Definition plainArg : Statement.NamedValue :=
  Statement.mkNamedValue "" 2 (VInt 5).

Definition adaptorContext : Statement.Context :=
  Statement.mkContext (Some emptySchemaAdaptor).

(** * Theorems *)

Lemma forall_below_spec (n : nat) (p : Z -> bool) :
  forall_below n p = true ->
  forall z, 0 <= z < Z.of_nat n -> p z = true.
Proof.
  induction n as [|k IH]; intros H z Hz.
  - simpl in Hz. lia.
  - cbn [forall_below] in H. apply andb_true_iff in H as [Hk Hrest].
    destruct (Z.eq_dec z (Z.of_nat k)) as [->|Hne]; [exact Hk|].
    apply IH; [exact Hrest|lia].
Qed.

(** ** The calendar of [time] *)

Example date_normalises :
  time.absDate (time.Date 2021 10 32 0 0 0 0 time.UTC) = (2021, 11, 1).
Proof. reflexivity. Qed.

Example date_epoch : time.unixSec (time.Date 1970 1 1 0 0 0 0 time.UTC) = 0.
Proof. reflexivity. Qed.

Example date_leap :
  time.absDate (time.Date 2024 2 29 23 59 59 999 time.UTC) = (2024, 2, 29)
  /\ time.absDate (time.Date 2024 12 31 0 0 0 0 time.UTC) = (2024, 12, 31)
  /\ time.absDate (time.Date 1900 3 1 0 0 0 0 time.UTC) = (1900, 3, 1)
  /\ time.absDate (time.Date (-4) 2 29 0 0 0 0 time.UTC) = (-4, 2, 29)
  /\ time.unixSec (time.Date 2000 1 1 0 0 0 0 time.UTC) = 946684800.
Proof. repeat split; reflexivity. Qed.

Example format_example :
  time.FormatTimeOfDayMicro (time.Date 2000 1 1 7 5 9 123456789 time.UTC)
  = "07:05:09.123456".
Proof. reflexivity. Qed.

Lemma cycleYearCheck_true : cycleYearCheck = true.
Proof. vm_compute. reflexivity. Qed.

Lemma monthDayCheck_true : monthDayCheck = true.
Proof. vm_compute. reflexivity. Qed.

Lemma cycleYear_ok (r yd : Z) :
  0 <= r < 400 ->
  0 <= yd < yearLength (time.isLeap (r + 1)) ->
  time.cycleYear (cycleOffset r + yd) = (r, yd)
  /\ 0 <= cycleOffset r + yd < 146097.
Proof.
  intros Hr Hyd.
  pose proof (forall_below_spec 400 _ cycleYearCheck_true r ltac:(lia)) as H.
  cbv beta in H.
  assert (Hyd' : 0 <= yd < Z.of_nat 366)
    by (destruct (time.isLeap (r + 1)); cbn [yearLength] in Hyd; lia).
  pose proof (forall_below_spec 366 _ H yd Hyd') as H'.
  cbv beta in H'.
  apply orb_true_iff in H' as [H'|H'].
  - apply Z.leb_le in H'. lia.
  - destruct (time.cycleYear (cycleOffset r + yd)) as [y d].
    apply andb_true_iff in H' as [H' Hb].
    apply andb_true_iff in H' as [Hy Hd].
    apply Z.eqb_eq in Hy, Hd. apply Z.ltb_lt in Hb. subst.
    split; [reflexivity|].
    unfold cycleOffset in *.
    pose proof (Z.div_pos r 4 ltac:(lia) ltac:(lia)).
    assert (r / 100 <= r / 4) by (apply Z.div_le_compat_l; lia).
    lia.
Qed.

Lemma isLeap_cycle (y : Z) : time.isLeap y = time.isLeap ((y - 1) mod 400 + 1).
Proof.
  unfold time.isLeap.
  assert (H4 : ((y - 1) mod 400 + 1) mod 4 = y mod 4)
    by (Z.div_mod_to_equations; lia).
  assert (H100 : ((y - 1) mod 400 + 1) mod 100 = y mod 100)
    by (Z.div_mod_to_equations; lia).
  assert (H400 : ((y - 1) mod 400 + 1) mod 400 = y mod 400)
    by (Z.div_mod_to_equations; lia).
  rewrite H4, H100, H400. reflexivity.
Qed.

Lemma daysBeforeYear_cycle (y : Z) :
  time.daysBeforeYear y
  = 146097 * ((y - 1) / 400) + cycleOffset ((y - 1) mod 400).
Proof.
  unfold time.daysBeforeYear, cycleOffset. cbv zeta.
  Z.div_mod_to_equations. lia.
Qed.

Lemma yearDay_ok (y yd : Z) :
  0 <= yd < yearLength (time.isLeap y) ->
  time.yearDay (time.daysBeforeYear y + yd) = (y, yd).
Proof.
  intros Hyd.
  rewrite isLeap_cycle in Hyd.
  pose proof (Z.mod_pos_bound (y - 1) 400 ltac:(lia)) as Hr.
  destruct (cycleYear_ok _ _ Hr Hyd) as [Hc Hb].
  rewrite daysBeforeYear_cycle.
  set (q := (y - 1) / 400) in *. set (r := (y - 1) mod 400) in *.
  unfold time.yearDay.
  assert (Hmod : (146097 * q + cycleOffset r + yd) mod 146097
                 = cycleOffset r + yd).
  { symmetry. apply Z.mod_unique_pos with (q := q); lia. }
  assert (Hdiv : (146097 * q + cycleOffset r + yd) / 146097 = q).
  { symmetry. apply Z.div_unique_pos with (r := cycleOffset r + yd); lia. }
  rewrite Hmod, Hdiv, Hc.
  f_equal. subst q r. pose proof (Z.div_mod (y - 1) 400 ltac:(lia)). lia.
Qed.

Lemma monthDay_ok (leap : bool) (m d : Z) :
  1 <= m <= 12 -> 1 <= d <= time.daysIn leap m ->
  time.monthDay leap (dayOfYear leap m d) = (m, d)
  /\ 0 <= dayOfYear leap m d < yearLength leap.
Proof.
  intros Hm Hd.
  assert (Hd31 : d <= 31).
  { assert (Hc : m = 1 \/ m = 2 \/ m = 3 \/ m = 4 \/ m = 5 \/ m = 6 \/ m = 7
                 \/ m = 8 \/ m = 9 \/ m = 10 \/ m = 11 \/ m = 12) by lia.
    unfold time.daysIn in Hd.
    destruct leap;
      repeat (destruct Hc as [->|Hc]; [simpl in Hd; lia|]);
      subst; simpl in Hd; lia. }
  pose proof monthDayCheck_true as H. unfold monthDayCheck in H.
  apply andb_true_iff in H as [Ht Hf].
  assert (H : monthDayCheckFor leap = true) by (destruct leap; assumption).
  unfold monthDayCheckFor in H.
  pose proof (forall_below_spec 13 _ H m ltac:(lia)) as H1. cbv beta in H1.
  pose proof (forall_below_spec 32 _ H1 d ltac:(lia)) as H2. cbv beta zeta in H2.
  apply orb_true_iff in H2 as [H2|H2].
  - apply negb_true_iff in H2.
    assert (Ht' : (1 <=? m) && (1 <=? d) && (d <=? time.daysIn leap m) = true).
    { rewrite !andb_true_iff, !Z.leb_le. lia. }
    congruence.
  - destruct (time.monthDay leap (dayOfYear leap m d)) as [m' d'].
    rewrite !andb_true_iff in H2.
    destruct H2 as [[[Hm' Hd'] Hlo] Hhi].
    apply Z.eqb_eq in Hm', Hd'. apply Z.leb_le in Hlo. apply Z.ltb_lt in Hhi.
    subst. split; [reflexivity|lia].
Qed.

Lemma norm_small (hi lo base : Z) :
  0 <= lo < base -> time.norm hi lo base = (hi, lo).
Proof.
  intros H. unfold time.norm.
  rewrite Z.div_small, Z.mod_small, Z.add_0_r by lia. reflexivity.
Qed.

(** A valid date and clock reading survive [time.Date] unchanged. *)
Lemma Date_fields (y m d h mi s ns : Z) (l : time.Location) :
  time.validDate y m d -> time.validClock h mi s ns ->
  let t := time.Date y m d h mi s ns l in
  time.Year t = y /\ time.Month t = m /\ time.Day t = d
  /\ time.Hour t = h /\ time.Minute t = mi /\ time.Second t = s
  /\ time.Nanosecond t = ns /\ time.loc t = l.
Proof.
  intros [Hm Hd] (Hh & Hmi & Hs & Hns). cbv zeta.
  unfold time.Date.
  rewrite (norm_small y (m - 1) 12) by lia.
  rewrite (norm_small s ns 1000000000) by lia.
  rewrite (norm_small mi s 60) by lia.
  rewrite (norm_small h mi 60) by lia.
  rewrite (norm_small d h 24) by lia.
  cbv beta iota zeta. replace (m - 1 + 1) with m by lia.
  destruct (monthDay_ok (time.isLeap y) m d Hm Hd) as [Hmd Hyd].
  set (yd := dayOfYear (time.isLeap y) m d) in *.
  set (tod := h * 3600 + mi * 60 + s).
  assert (Htod : 0 <= tod < 86400) by (subst tod; lia).
  unfold time.Year, time.Month, time.Day, time.Hour, time.Minute,
    time.Second, time.Nanosecond, time.absDate, time.daysSinceEpoch,
    time.secondsPerDay, time.unixEpochDay.
  cbn [time.unixSec time.nsec time.loc].
  set (D := time.daysBeforeYear y - 719162 + yd).
  match goal with
  | |- context [?X * 86400 + tod] =>
      replace X with D by (subst D yd; unfold dayOfYear; lia)
  end.
  assert (Hdiv : (D * 86400 + tod) / 86400 = D).
  { symmetry. apply Z.div_unique_pos with (r := tod); lia. }
  assert (Hmod : (D * 86400 + tod) mod 86400 = tod).
  { symmetry. apply Z.mod_unique_pos with (q := D); lia. }
  rewrite Hdiv, Hmod.
  replace (D + 719162) with (time.daysBeforeYear y + yd) by (subst D; lia).
  rewrite (yearDay_ok y yd Hyd), Hmd. cbn [fst snd].
  repeat split; try reflexivity.
  - subst tod. Z.div_mod_to_equations. lia.
  - subst tod. Z.div_mod_to_equations. lia.
  - subst tod. Z.div_mod_to_equations. lia.
Qed.

(** Whatever the date fields, a zero clock gives an instant on a day
    boundary: midnight in UTC. *)
Lemma Date_midnight (y m d : Z) (l : time.Location) :
  let t := time.Date y m d 0 0 0 0 l in
  time.unixSec t mod time.secondsPerDay = 0
  /\ time.Hour t = 0 /\ time.Minute t = 0 /\ time.Second t = 0
  /\ time.Nanosecond t = 0 /\ time.loc t = l.
Proof.
  cbv zeta. unfold time.Date.
  destruct (time.norm y (m - 1) 12) as [y' m'].
  rewrite (norm_small 0 0 1000000000) by lia. cbv beta iota zeta.
  rewrite (norm_small 0 0 60) by lia. cbv beta iota zeta.
  rewrite (norm_small 0 0 60) by lia. cbv beta iota zeta.
  rewrite (norm_small d 0 24) by lia. cbv beta iota zeta.
  unfold time.Hour, time.Minute, time.Second, time.Nanosecond,
    time.secondsPerDay.
  cbn [time.unixSec time.nsec time.loc].
  set (D := _ + _ + _ + _).
  change (0 * 3600 + 0 * 60 + 0) with 0. rewrite Z.add_0_r.
  rewrite Z.mod_mul by lia.
  repeat split; try reflexivity.
  - Z.div_mod_to_equations. lia.
  - Z.div_mod_to_equations. lia.
Qed.

(** ** The stages of [ConvertValue] *)

Lemma schema_empty_length (c : bigQueryColumn) :
  Schema c = [] -> (List.length (Schema c) =? 0)%nat = true.
Proof. intros ->. reflexivity. Qed.

Lemma schema_nonempty_length (c : bigQueryColumn) :
  Schema c <> [] -> (List.length (Schema c) =? 0)%nat = false.
Proof. destruct (Schema c); [congruence|reflexivity]. Qed.

(** When the temporal stage does not fire, both revisions run the later
    stages on the raw value. *)
Lemma Columns_unmatched (now : time.Time) (c : bigQueryColumn) (v : Value) :
  temporalMatch c v = false -> Columns.ConvertValue now c v = convertNested c v.
Proof.
  unfold temporalMatch, Columns.ConvertValue, convertNested.
  destruct (String.eqb (FieldType c) bigquery.DateFieldType),
    (String.eqb (FieldType c) bigquery.TimeFieldType),
    (String.eqb (FieldType c) bigquery.DateTimeFieldType);
    destruct v; cbn [isCivilDate isCivilTime isCivilDateTime andb orb];
    intros H; try discriminate H; reflexivity.
Qed.

Lemma Part000_unmatched (c : bigQueryColumn) (v : Value) :
  temporalMatch c v = false -> Part000.ConvertValue c v = convertNested c v.
Proof.
  unfold temporalMatch, Part000.ConvertValue, convertNested.
  destruct (String.eqb (FieldType c) bigquery.DateFieldType),
    (String.eqb (FieldType c) bigquery.TimeFieldType),
    (String.eqb (FieldType c) bigquery.DateTimeFieldType);
    destruct v;
    cbn [isCivilDate isCivilTime isCivilDateTime isNil negb andb orb];
    intros H; try discriminate H; reflexivity.
Qed.

(** A sequence never has a civil type, so the temporal stage lets it by. *)
Lemma temporalMatch_values (c : bigQueryColumn) (l : list Value) :
  temporalMatch c (VValues l) = false.
Proof.
  unfold temporalMatch. cbn [isCivilDate isCivilTime isCivilDateTime].
  rewrite !andb_false_r. reflexivity.
Qed.

Lemma temporalMatch_nil (c : bigQueryColumn) : temporalMatch c VNil = false.
Proof.
  unfold temporalMatch. cbn [isCivilDate isCivilTime isCivilDateTime].
  rewrite !andb_false_r. reflexivity.
Qed.

Lemma temporalMatch_time (c : bigQueryColumn) (t : time.Time) :
  temporalMatch c (VTime t) = false.
Proof.
  unfold temporalMatch. cbn [isCivilDate isCivilTime isCivilDateTime].
  rewrite !andb_false_r. reflexivity.
Qed.

Lemma convertNested_flat (c : bigQueryColumn) (v : Value) :
  Schema c = [] -> convertNested c v = (v, None).
Proof.
  intros H. unfold convertNested. rewrite (schema_empty_length c H). reflexivity.
Qed.

Lemma convertNested_scalar (c : bigQueryColumn) (v : Value) :
  Schema c <> [] -> isValues v = false -> convertNested c v = adapt c v.
Proof.
  intros H Hv. unfold convertNested, adapt.
  rewrite (schema_nonempty_length c H). destruct v; try discriminate Hv; reflexivity.
Qed.

Lemma convertNested_values (c : bigQueryColumn) (l : list Value) :
  Schema c <> [] ->
  convertNested c (VValues l)
  = adapt c (bigQueryReroutedColumn
               (match l with
                | first :: _ => if isValues first then l else [VValues l]
                | [] => l
                end) (Schema c)).
Proof.
  intros H. unfold convertNested, adapt.
  rewrite (schema_nonempty_length c H). reflexivity.
Qed.

(** ** Claims on the value converter *)

(** C6. [ConvertColumnValue] with a negative column index, or an index at or
    beyond the number of columns, returns the raw value unchanged and no
    error.  Both revisions of columns.go. *)
Theorem C6_index_out_of_range (now : time.Time) (cols : bigQueryColumns)
  (index : Z) (value : Value) :
  index < 0 \/ Z.of_nat (List.length (columns cols)) <= index ->
  Columns.ConvertColumnValue now cols index value = (value, None)
  /\ Part000.ConvertColumnValue cols index value = (value, None).
Proof.
  intros H. unfold Columns.ConvertColumnValue, Part000.ConvertColumnValue.
  assert (Hb : (-1 <? index) && (index <? Z.of_nat (List.length (columns cols)))
               = false).
  { apply andb_false_iff. destruct H as [H|H].
    - left. apply Z.ltb_ge. lia.
    - right. apply Z.ltb_ge. lia. }
  rewrite Hb. split; reflexivity.
Qed.

Lemma C6_index_out_of_range_witness :
  (1 < 0 \/ Z.of_nat (List.length (columns (createBigQuerySchema [sampleField] None))) <= 1)
  /\ Columns.ConvertColumnValue noon2020
       (createBigQuerySchema [sampleField] None) 1 (VInt 7) = (VInt 7, None)
  /\ Part000.ConvertColumnValue
       (createBigQuerySchema [sampleField] None) 1 (VInt 7) = (VInt 7, None).
Proof.
  assert (H : 1 < 0 \/ Z.of_nat (List.length (columns (createBigQuerySchema [sampleField] None))) <= 1)
    by (right; simpl; lia).
  split; [exact H|].
  exact (C6_index_out_of_range noon2020 (createBigQuerySchema [sampleField] None)
           1 (VInt 7) H).
Defined.

(** C5. For a column with a non-empty nested schema and no adaptor, a
    non-empty sequence whose first element is itself a sequence comes back
    as a rerouted column holding the sequence unchanged, under the column's
    nested schema; a non-empty sequence whose first element is not a
    sequence comes back wrapped once more, as a singleton.  Both
    revisions. *)
Theorem C5_nested_token (now : time.Time) (c : bigQueryColumn)
  (first : Value) (rest : list Value) :
  Schema c <> [] -> Adaptor c = None ->
  (isValues first = true ->
     Columns.ConvertValue now c (VValues (first :: rest))
     = (bigQueryReroutedColumn (first :: rest) (Schema c), None)
     /\ Part000.ConvertValue c (VValues (first :: rest))
        = (bigQueryReroutedColumn (first :: rest) (Schema c), None))
  /\ (isValues first = false ->
     Columns.ConvertValue now c (VValues (first :: rest))
     = (bigQueryReroutedColumn [VValues (first :: rest)] (Schema c), None)
     /\ Part000.ConvertValue c (VValues (first :: rest))
        = (bigQueryReroutedColumn [VValues (first :: rest)] (Schema c), None)).
Proof.
  intros Hs Ha.
  rewrite (Columns_unmatched now c _ (temporalMatch_values c _)).
  rewrite (Part000_unmatched c _ (temporalMatch_values c _)).
  rewrite (convertNested_values c _ Hs). unfold adapt. rewrite Ha.
  split; intros ->; split; reflexivity.
Qed.

Lemma C5_nested_token_witness :
  Schema nestedColumn <> [] /\ Adaptor nestedColumn = None
  /\ Columns.ConvertValue noon2020 nestedColumn
       (VValues [VValues [VString "a"; VString "b"];
                 VValues [VString "c"; VString "d"]])
     = (bigQueryReroutedColumn
          [VValues [VString "a"; VString "b"];
           VValues [VString "c"; VString "d"]] [sampleField], None)
  /\ Columns.ConvertValue noon2020 nestedColumn
       (VValues [VString "a"; VString "b"])
     = (bigQueryReroutedColumn [VValues [VString "a"; VString "b"]]
          [sampleField], None).
Proof.
  assert (Hs : Schema nestedColumn <> []) by discriminate.
  assert (Ha : Adaptor nestedColumn = None) by reflexivity.
  split; [exact Hs|]. split; [exact Ha|]. split.
  - exact (proj1 (proj1 (C5_nested_token noon2020 nestedColumn
                           (VValues [VString "a"; VString "b"])
                           [VValues [VString "c"; VString "d"]] Hs Ha)
                    eq_refl)).
  - exact (proj1 (proj2 (C5_nested_token noon2020 nestedColumn
                           (VString "a") [VString "b"] Hs Ha)
                    eq_refl)).
Defined.

(** C4 (as stated, refuted).  A column with an empty nested schema and a
    resolved adaptor, given a value the temporal stage does not touch: the
    adaptor is not invoked, the raw value is returned. *)
Lemma C4_counterexample :
  Schema flatAdaptedColumn = []
  /\ temporalMatch flatAdaptedColumn (VInt 1) = false
  /\ Adaptor flatAdaptedColumn = Some sampleAdaptor
  /\ Columns.ConvertValue noon2020 flatAdaptedColumn (VInt 1)
     <> AdaptValue sampleAdaptor (VInt 1)
  /\ Part000.ConvertValue flatAdaptedColumn (VInt 1)
     <> AdaptValue sampleAdaptor (VInt 1).
Proof. repeat split; try reflexivity; cbv; discriminate. Qed.

(** C4 (amended).  For a column whose nested schema is empty, when the
    temporal stage does not fire, [ConvertValue] returns the raw value
    unchanged with no error whether or not an adaptor was resolved: the
    early return on the empty schema comes before the adaptor.  Both
    revisions. *)
Theorem C4_flat_column_skips_adaptor (now : time.Time) (c : bigQueryColumn)
  (v : Value) :
  Schema c = [] -> temporalMatch c v = false ->
  Columns.ConvertValue now c v = (v, None)
  /\ Part000.ConvertValue c v = (v, None).
Proof.
  intros Hs Hm.
  rewrite (Columns_unmatched now c v Hm), (Part000_unmatched c v Hm).
  rewrite (convertNested_flat c v Hs). split; reflexivity.
Qed.

Lemma C4_flat_column_skips_adaptor_witness :
  Schema flatAdaptedColumn = []
  /\ temporalMatch flatAdaptedColumn (VInt 1) = false
  /\ Columns.ConvertValue noon2020 flatAdaptedColumn (VInt 1) = (VInt 1, None)
  /\ Part000.ConvertValue flatAdaptedColumn (VInt 1) = (VInt 1, None).
Proof.
  split; [reflexivity|]. split; [reflexivity|].
  exact (C4_flat_column_skips_adaptor noon2020 flatAdaptedColumn (VInt 1)
           eq_refl eq_refl).
Defined.

Lemma Columns_matched (now : time.Time) (c : bigQueryColumn) (v : Value) :
  temporalMatch c v = true -> snd (Columns.ConvertValue now c v) = None.
Proof.
  unfold temporalMatch, Columns.ConvertValue.
  destruct (String.eqb (FieldType c) bigquery.DateFieldType),
    (String.eqb (FieldType c) bigquery.TimeFieldType),
    (String.eqb (FieldType c) bigquery.DateTimeFieldType);
    destruct v; cbn [isCivilDate isCivilTime isCivilDateTime andb orb];
    intros H; try discriminate H; reflexivity.
Qed.

Lemma Part000_matched (c : bigQueryColumn) (v : Value) :
  temporalMatch c v = true -> snd (Part000.ConvertValue c v) = None.
Proof.
  unfold temporalMatch, Part000.ConvertValue.
  destruct (String.eqb (FieldType c) bigquery.DateFieldType),
    (String.eqb (FieldType c) bigquery.TimeFieldType),
    (String.eqb (FieldType c) bigquery.DateTimeFieldType);
    destruct v;
    cbn [isCivilDate isCivilTime isCivilDateTime isNil negb andb orb];
    intros H; try discriminate H; reflexivity.
Qed.

(** C9.  For a column tagged DATE, TIME or DATETIME the temporal stage
    never yields an error: when it fires the error is nil; when the raw
    value is nil or has not the civil type of the tag, the later stages run
    on the raw value as it came; and a nil value in such a column with an
    empty nested schema and no adaptor comes back unchanged with no error.
    Both revisions. *)
Theorem C9_temporal_never_fails (now : time.Time) (c : bigQueryColumn)
  (v : Value) :
  isTemporal c = true ->
  (temporalMatch c v = true ->
     snd (Columns.ConvertValue now c v) = None
     /\ snd (Part000.ConvertValue c v) = None)
  /\ (v = VNil \/ temporalMatch c v = false ->
     Columns.ConvertValue now c v = convertNested c v
     /\ Part000.ConvertValue c v = convertNested c v)
  /\ (Schema c = [] -> Adaptor c = None ->
     Columns.ConvertValue now c VNil = (VNil, None)
     /\ Part000.ConvertValue c VNil = (VNil, None)).
Proof.
  intros _. repeat split.
  - apply Columns_matched; assumption.
  - apply Part000_matched; assumption.
  - destruct H as [->|H]; apply Columns_unmatched;
      [apply temporalMatch_nil|exact H].
  - destruct H as [->|H]; apply Part000_unmatched;
      [apply temporalMatch_nil|exact H].
  - rewrite (Columns_unmatched now c VNil (temporalMatch_nil c)).
    apply convertNested_flat; assumption.
  - rewrite (Part000_unmatched c VNil (temporalMatch_nil c)).
    apply convertNested_flat; assumption.
Qed.

Lemma C9_temporal_never_fails_witness :
  isTemporal flatDateColumn = true
  /\ Columns.ConvertValue noon2020 flatDateColumn VNil = (VNil, None)
  /\ Part000.ConvertValue flatDateColumn VNil = (VNil, None)
  /\ Columns.ConvertValue noon2020 flatDateColumn (VString "2020-01-01")
     = convertNested flatDateColumn (VString "2020-01-01").
Proof.
  split; [reflexivity|].
  pose proof (C9_temporal_never_fails noon2020 flatDateColumn VNil eq_refl)
    as [_ [_ Hnil]].
  pose proof (C9_temporal_never_fails noon2020 flatDateColumn
                (VString "2020-01-01") eq_refl) as [_ [Hpass _]].
  destruct (Hnil eq_refl eq_refl) as [H1 H2].
  split; [exact H1|]. split; [exact H2|].
  exact (proj1 (Hpass (or_intror eq_refl))).
Defined.

(** C10 (as stated, refuted).  A column with a non-empty nested schema and
    no adaptor, tagged DATE, given a civil date (not a sequence): the value
    does not come back unchanged, the temporal stage has already replaced
    it. *)
Lemma C10_counterexample :
  Schema nestedDateColumn <> []
  /\ isValues (VCivilDate newYear2020) = false
  /\ Adaptor nestedDateColumn = None
  /\ Columns.ConvertValue noon2020 nestedDateColumn (VCivilDate newYear2020)
     <> (VCivilDate newYear2020, None)
  /\ Part000.ConvertValue nestedDateColumn (VCivilDate newYear2020)
     <> (VCivilDate newYear2020, None).
Proof.
  split; [discriminate|]. split; [reflexivity|]. split; [reflexivity|].
  split; cbv; discriminate.
Qed.

(** C10 (amended).  For a column with a non-empty nested schema: a raw
    value that is not a sequence and that the temporal stage does not
    convert is itself the working value, handed to the adaptor if there is
    one and returned unchanged with no error otherwise; an empty sequence
    becomes a rerouted column with empty values, not wrapped, and that is
    the working value.  Both revisions. *)
Theorem C10_non_sequence_and_empty (now : time.Time) (c : bigQueryColumn)
  (v : Value) :
  Schema c <> [] ->
  (isValues v = false -> temporalMatch c v = false ->
     Columns.ConvertValue now c v = adapt c v
     /\ Part000.ConvertValue c v = adapt c v
     /\ (Adaptor c = None -> adapt c v = (v, None))
     /\ (forall a, Adaptor c = Some a -> adapt c v = AdaptValue a v))
  /\ Columns.ConvertValue now c (VValues [])
     = adapt c (bigQueryReroutedColumn [] (Schema c))
  /\ Part000.ConvertValue c (VValues [])
     = adapt c (bigQueryReroutedColumn [] (Schema c)).
Proof.
  intros Hs. split; [intros Hv Hm|].
  - rewrite (Columns_unmatched now c v Hm), (Part000_unmatched c v Hm).
    rewrite (convertNested_scalar c v Hs Hv).
    repeat split; unfold adapt.
    + intros ->. reflexivity.
    + intros a ->. reflexivity.
  - rewrite (Columns_unmatched now c _ (temporalMatch_values c [])).
    rewrite (Part000_unmatched c _ (temporalMatch_values c [])).
    rewrite (convertNested_values c [] Hs). split; reflexivity.
Qed.

Lemma C10_non_sequence_and_empty_witness :
  Schema nestedColumn <> []
  /\ Columns.ConvertValue noon2020 nestedColumn (VInt 3) = (VInt 3, None)
  /\ Columns.ConvertValue noon2020 nestedColumn (VValues [])
     = (bigQueryReroutedColumn [] [sampleField], None).
Proof.
  assert (Hs : Schema nestedColumn <> []) by discriminate.
  split; [exact Hs|].
  destruct (C10_non_sequence_and_empty noon2020 nestedColumn (VInt 3) Hs)
    as [Hscalar [Hempty _]].
  split.
  - exact (proj1 (Hscalar eq_refl eq_refl)).
  - exact Hempty.
Defined.

(** ** Claims on temporal coercion *)

Lemma Columns_date (now : time.Time) (c : bigQueryColumn) (d : civil.Date) :
  FieldType c = bigquery.DateFieldType ->
  Columns.ConvertValue now c (VCivilDate d)
  = (VTime (time.Date (civil.Year d) (civil.Month d) (civil.Day d)
              0 0 0 0 time.UTC), None).
Proof.
  intros H. unfold Columns.ConvertValue. rewrite H, String.eqb_refl. reflexivity.
Qed.

Lemma Part000_date (c : bigQueryColumn) (d : civil.Date) :
  FieldType c = bigquery.DateFieldType ->
  Part000.ConvertValue c (VCivilDate d)
  = (VTime (time.Date (civil.Year d) (civil.Month d) (civil.Day d)
              0 0 0 0 time.UTC), None).
Proof.
  intros H. unfold Part000.ConvertValue. rewrite H, String.eqb_refl. reflexivity.
Qed.

Lemma Columns_datetime (now : time.Time) (c : bigQueryColumn)
  (dt : civil.DateTime) :
  FieldType c = bigquery.DateTimeFieldType ->
  Columns.ConvertValue now c (VCivilDateTime dt)
  = (VTime (time.Date (civil.Year (civil.dt_Date dt))
              (civil.Month (civil.dt_Date dt)) (civil.Day (civil.dt_Date dt))
              (civil.Hour (civil.dt_Time dt)) (civil.Minute (civil.dt_Time dt))
              (civil.Second (civil.dt_Time dt))
              (civil.Nanosecond (civil.dt_Time dt)) time.UTC), None).
Proof.
  intros H. unfold Columns.ConvertValue. rewrite H, String.eqb_refl.
  change (String.eqb bigquery.DateTimeFieldType bigquery.DateFieldType)
    with false.
  change (String.eqb bigquery.DateTimeFieldType bigquery.TimeFieldType)
    with false.
  reflexivity.
Qed.

Lemma Part000_datetime (c : bigQueryColumn) (dt : civil.DateTime) :
  FieldType c = bigquery.DateTimeFieldType ->
  Part000.ConvertValue c (VCivilDateTime dt)
  = (VTime (time.Date (civil.Year (civil.dt_Date dt))
              (civil.Month (civil.dt_Date dt)) (civil.Day (civil.dt_Date dt))
              (civil.Hour (civil.dt_Time dt)) (civil.Minute (civil.dt_Time dt))
              (civil.Second (civil.dt_Time dt))
              (civil.Nanosecond (civil.dt_Time dt)) time.UTC), None).
Proof.
  intros H. unfold Part000.ConvertValue. rewrite H, String.eqb_refl.
  change (String.eqb bigquery.DateTimeFieldType bigquery.DateFieldType)
    with false.
  reflexivity.
Qed.

(** A time passes a second conversion untouched unless the column has both
    a nested schema and an adaptor. *)
Lemma convertNested_time (c : bigQueryColumn) (t : time.Time) :
  Schema c = [] \/ Adaptor c = None ->
  convertNested c (VTime t) = (VTime t, None).
Proof.
  intros H. destruct (Schema c) as [|f s] eqn:Hs.
  - apply convertNested_flat. exact Hs.
  - destruct H as [H|H]; [discriminate H|].
    rewrite convertNested_scalar; [|rewrite Hs; discriminate|reflexivity].
    unfold adapt. rewrite H. reflexivity.
Qed.







(** C3 (as stated, refuted).  In src/driver/columns.go the same TIME
    column and the same civil time give two different results at two
    different days of the clock. *)
Lemma C3_counterexample :
  Columns.ConvertValue noon2020 timeColumn (VCivilTime someClock)
  <> Columns.ConvertValue noon2021 timeColumn (VCivilTime someClock).
Proof. vm_compute. discriminate. Qed.

(** C3 (amended).  In src/driver/columns.go the result of [ConvertValue] is
    a function of the column, the raw value and, for a TIME column given a
    civil time only, the UTC calendar date of the clock: two calls with the
    same column and raw value agree whenever that case does not arise or
    the two clock readings fall on the same UTC date.  (The revision in
    part_000 reads no clock at all.) *)
Theorem C3_result_depends_on_clock_date_only (now1 now2 : time.Time)
  (c : bigQueryColumn) (v : Value) :
  (FieldType c = bigquery.TimeFieldType -> isCivilTime v = true ->
   utcDate now1 = utcDate now2) ->
  Columns.ConvertValue now1 c v = Columns.ConvertValue now2 c v.
Proof.
  intros H. unfold Columns.ConvertValue.
  destruct (String.eqb (FieldType c) bigquery.TimeFieldType) eqn:Ht.
  - apply String.eqb_eq in Ht.
    destruct v; try reflexivity.
    specialize (H Ht eq_refl). unfold utcDate in H.
    unfold time.Year, time.Month, time.Day. cbv zeta. rewrite H.
    reflexivity.
  - destruct v; reflexivity.
Qed.

Lemma C3_result_depends_on_clock_date_only_witness :
  utcDate noon2020 = utcDate evening2020
  /\ noon2020 <> evening2020
  /\ Columns.ConvertValue noon2020 timeColumn (VCivilTime someClock)
     = Columns.ConvertValue evening2020 timeColumn (VCivilTime someClock).
Proof.
  split; [reflexivity|]. split; [vm_compute; discriminate|].
  exact (C3_result_depends_on_clock_date_only noon2020 evening2020 timeColumn
           (VCivilTime someClock) (fun _ _ => eq_refl)).
Defined.

(** ** The schema builder *)

Lemma appendColumn_fold (sa : option SchemaAdaptor) (schema : bigquery.Schema)
  (ns : list string) (cs : list bigQueryColumn) :
  fold_left (appendColumn sa) schema (ns, cs)
  = (ns ++ map bigquery.Name schema, cs ++ map (columnOf sa) schema).
Proof.
  revert ns cs. induction schema as [|f schema IH]; intros ns cs.
  - cbn [fold_left map]. rewrite !app_nil_r. reflexivity.
  - cbn [fold_left map].
    replace (appendColumn sa (ns, cs) f)
      with (ns ++ [bigquery.Name f], cs ++ [columnOf sa f]) by reflexivity.
    rewrite IH, <- !app_assoc. reflexivity.
Qed.

Lemma createBigQuerySchema_spec (schema : bigquery.Schema)
  (sa : option SchemaAdaptor) :
  createBigQuerySchema schema sa
  = mkColumns (map bigquery.Name schema) (map (columnOf sa) schema).
Proof.
  unfold createBigQuerySchema. rewrite appendColumn_fold. reflexivity.
Qed.

(** ** Claims on the rerouting protocol *)

(** C1 (as stated, refuted).  The reroute sentinel with two bind arguments,
    the first a rerouted column, in a context that carries a schema
    adaptor: the number of arguments is not one, yet the query succeeds. *)
Lemma C1_counterexample :
  List.length [tokenArg; plainArg] <> 1%nat
  /\ Statement.QueryContext sampleSentinel sampleRemote
       (Statement.mkStatement sampleSentinel) adaptorContext
       [tokenArg; plainArg]
     = (inl (Statement.mkRows
               (Statement.ColumnSource
                  (Statement.createSourceFromColumn
                     (createBigQuerySchema [sampleField]
                        (Some emptySchemaAdaptor))
                     [VValues [VString "x"]; VValues [VString "y"]]))),
        [])
  /\ fst (Statement.QueryContext sampleSentinel sampleRemote
            (Statement.mkStatement sampleSentinel) adaptorContext
            [tokenArg; plainArg])
     <> inr Statement.MissingReroutingArgument.
Proof.
  split; [discriminate|]. split; [reflexivity|]. cbv. discriminate.
Qed.

(** C1 (amended).  When the statement text equals the reroute sentinel,
    [QueryContext] fails with MissingReroutingArgument when there is no
    bind argument; otherwise it looks at the first argument only, and
    fails with InvalidReroutingArgument when its value is not a rerouted
    column, whatever the context; and fails with MissingSchemaAdaptor when
    it is one but the context carries no schema adaptor; in every other
    case it succeeds.  The three errors are distinct and no remote call is
    made on any of these paths. *)
Theorem C1_reroute_preconditions (RerouteQuery : string) (RowIterator : Type)
  (remoteRead : string -> list Statement.QueryParameter -> RowIterator + error)
  (statement : Statement.bigQueryStatement) (ctx : Statement.Context)
  (args : list Statement.NamedValue) :
  Statement.query statement = RerouteQuery ->
  let result := Statement.QueryContext RerouteQuery remoteRead statement ctx args in
  (args = [] -> result = (inr Statement.MissingReroutingArgument, []))
  /\ (forall arg0 rest, args = arg0 :: rest ->
        isReroutedColumn (Statement.nv_Value arg0) = false ->
        result = (inr Statement.InvalidReroutingArgument, []))
  /\ (forall arg0 rest values schema, args = arg0 :: rest ->
        Statement.nv_Value arg0 = bigQueryReroutedColumn values schema ->
        Statement.GetSchemaAdaptor ctx = None ->
        result = (inr Statement.MissingSchemaAdaptor, []))
  /\ (forall arg0 rest values schema schemaAdaptor, args = arg0 :: rest ->
        Statement.nv_Value arg0 = bigQueryReroutedColumn values schema ->
        Statement.GetSchemaAdaptor ctx = Some schemaAdaptor ->
        result
        = (inl (Statement.mkRows
                  (Statement.ColumnSource
                     (Statement.createSourceFromColumn
                        (createBigQuerySchema schema (Some schemaAdaptor))
                        values))), []))
  /\ (Statement.MissingReroutingArgument <> Statement.InvalidReroutingArgument
      /\ Statement.MissingReroutingArgument <> Statement.MissingSchemaAdaptor
      /\ Statement.InvalidReroutingArgument <> Statement.MissingSchemaAdaptor).
Proof.
  intros Hq result. subst result. unfold Statement.QueryContext.
  rewrite Hq, String.eqb_refl.
  split; [intros ->; reflexivity|].
  split.
  { intros arg0 rest -> Hv.
    assert (Hl : (Z.of_nat (List.length (arg0 :: rest)) <? 1) = false)
      by (apply Z.ltb_ge; simpl List.length; lia).
    rewrite Hl. destruct (Statement.nv_Value arg0); try reflexivity.
    discriminate Hv. }
  split.
  { intros arg0 rest values schema -> Hv Hc.
    assert (Hl : (Z.of_nat (List.length (arg0 :: rest)) <? 1) = false)
      by (apply Z.ltb_ge; simpl List.length; lia).
    rewrite Hl, Hv, Hc. reflexivity. }
  split.
  { intros arg0 rest values schema sa -> Hv Hc.
    assert (Hl : (Z.of_nat (List.length (arg0 :: rest)) <? 1) = false)
      by (apply Z.ltb_ge; simpl List.length; lia).
    rewrite Hl, Hv, Hc. reflexivity. }
  repeat split; discriminate.
Qed.

Lemma C1_reroute_preconditions_witness :
  Statement.query (Statement.mkStatement sampleSentinel) = sampleSentinel
  /\ Statement.QueryContext sampleSentinel sampleRemote
       (Statement.mkStatement sampleSentinel) adaptorContext []
     = (inr Statement.MissingReroutingArgument, [])
  /\ Statement.QueryContext sampleSentinel sampleRemote
       (Statement.mkStatement sampleSentinel) adaptorContext [plainArg]
     = (inr Statement.InvalidReroutingArgument, [])
  /\ Statement.QueryContext sampleSentinel sampleRemote
       (Statement.mkStatement sampleSentinel) (Statement.mkContext None)
       [tokenArg]
     = (inr Statement.MissingSchemaAdaptor, []).
Proof.
  split; [reflexivity|].
  split.
  - exact (proj1 (C1_reroute_preconditions sampleSentinel unit sampleRemote
                    (Statement.mkStatement sampleSentinel) adaptorContext []
                    eq_refl) eq_refl).
  - split.
    + exact (proj1 (proj2 (C1_reroute_preconditions sampleSentinel unit
                             sampleRemote
                             (Statement.mkStatement sampleSentinel)
                             adaptorContext [plainArg] eq_refl))
               plainArg [] eq_refl eq_refl).
    + exact (proj1 (proj2 (proj2 (C1_reroute_preconditions sampleSentinel unit
                                    sampleRemote
                                    (Statement.mkStatement sampleSentinel)
                                    (Statement.mkContext None) [tokenArg]
                                    eq_refl)))
               tokenArg [] _ _ eq_refl eq_refl eq_refl).
Defined.

(** Reading an in-memory source whose remaining elements are all rows. *)
Lemma drain_rows (clock : nat -> time.Time) (schema : bigQueryColumns)
  (rows : list (list Value)) :
  forall (before : list Value) (call fuel : nat),
    (List.length rows < fuel)%nat ->
    Statement.drain fuel clock call
      (Statement.mkColumnSource schema (before ++ map VValues rows)
         (List.length before))
    = Some (expectedRows clock schema call rows).
Proof.
  induction rows as [|cells rows IH]; intros before call fuel Hfuel.
  - destruct fuel as [|fuel]; [simpl in Hfuel; lia|].
    cbn [Statement.drain]. unfold Statement.Next, Statement.sourceNext.
    cbn [Statement.src_rows Statement.src_position map].
    rewrite app_nil_r.
    rewrite (proj2 (nth_error_None before (List.length before))) by lia.
    reflexivity.
  - destruct fuel as [|fuel]; [simpl in Hfuel; lia|].
    cbn [Statement.drain]. unfold Statement.Next, Statement.sourceNext.
    cbn [Statement.src_rows Statement.src_position Statement.src_schema map].
    rewrite nth_error_app2 by lia. rewrite Nat.sub_diag.
    cbn [nth_error Statement.GetSchema Statement.src_schema expectedRows].
    assert (Hrest :
      Statement.drain fuel clock (S call)
        (Statement.mkColumnSource schema
           (before ++ VValues cells :: map VValues rows)
           (S (List.length before)))
      = Some (expectedRows clock schema (S call) rows)).
    { specialize (IH (before ++ [VValues cells]) (S call) fuel).
      rewrite <- app_assoc in IH. cbn [app] in IH.
      rewrite length_app in IH. cbn [List.length] in IH.
      rewrite Nat.add_1_r in IH. apply IH. simpl in Hfuel. lia. }
    unfold Statement.rowResult.
    destruct (Statement.convertCells (clock call) schema 0 cells);
      rewrite Hrest; reflexivity.
Qed.


